(** * swyp_hobbi_front: the toast store and the nickname edit workflow

  A shallow embedding of

  - [src/store/toast.ts]: the zustand store [useToastStore] with its two
    actions [showToast] and [hideToast];
  - [src/components/my_page/edit_nickname.tsx]: the component
    [EditNickname], its six [useState] cells, the handlers
    [handleClickOutside], [handleNicknameCheck] and [handleSave], and the
    [disabled] attributes of the elements that call them.

  An [async] handler is split at its [await]: the part that runs in the
  event that calls it, and the part that runs when the promise settles.
  The second part only calls [useState] setters, so it is a function of
  the state the component has at that later time. *)

From Stdlib Require Import List String Bool Arith Lia.
Import ListNotations.
Local Open Scope string_scope.
Local Open Scope list_scope.

(** ** src/store/toast.ts *)

Module Toast.

(** The data fields of [ToastState] (the two actions are the functions
    below). *)
Record ToastState : Type := mkToast {
  isVisible : bool;
  message : string
}.

(** What zustand's [set] is given: an object with some of the fields. *)
Record Partial : Type := mkPartial {
  p_isVisible : option bool;
  p_message : option string
}.

(** [set(partial)]: the fields of [partial] replace those of the state,
    the others are kept. *)
Definition set (p : Partial) (s : ToastState) : ToastState :=
  {| isVisible := match p_isVisible p with Some b => b | None => isVisible s end;
     message := match p_message p with Some m => m | None => message s end |}.

(** [create<ToastState>((set) => ({ isVisible: false, message: '', ... }))] *)
Definition initial : ToastState :=
  {| isVisible := false; message := "" |}.

(** [showToast: (message) => set({ isVisible: true, message })] *)
Definition showToast (m : string) : ToastState -> ToastState :=
  set {| p_isVisible := Some true; p_message := Some m |}.

(** [hideToast: () => set({ isVisible: false, message: '' })] *)
Definition hideToast : ToastState -> ToastState :=
  set {| p_isVisible := Some false; p_message := Some "" |}.

(** A call of one of the two actions. *)
Inductive Action : Type :=
| ShowToast (m : string)
| HideToast.

Definition apply (s : ToastState) (a : Action) : ToastState :=
  match a with
  | ShowToast m => showToast m s
  | HideToast => hideToast s
  end.

(** The store after a sequence of calls, oldest first. *)
Definition run (s : ToastState) (acts : list Action) : ToastState :=
  fold_left apply acts s.

(** The store after a sequence of [showToast] calls. *)
Definition showAll (s : ToastState) (ms : list string) : ToastState :=
  fold_left (fun st m => showToast m st) ms s.

(** The convention of the reset: a hidden store has no message. *)
Definition resetConvention (s : ToastState) : Prop :=
  isVisible s = false -> message s = "".

End Toast.

(** ** src/components/my_page/edit_nickname.tsx *)

Module EditNickname.

(** The six [useState] cells of the component. *)
Record State : Type := mkState {
  newNickname : string;
  isNicknameVerified : bool;
  isLoading : bool;
  isError : bool;
  errorMessage : string;
  showNicknameEdit : bool
}.

(** [useState('')], [useState(false)], ... on the first render. *)
Definition initial : State :=
  {| newNickname := ""; isNicknameVerified := false; isLoading := false;
     isError := false; errorMessage := ""; showNicknameEdit := false |}.

(** The setters returned by [useState]. *)
Definition setNewNickname (v : string) (s : State) : State :=
  {| newNickname := v; isNicknameVerified := isNicknameVerified s;
     isLoading := isLoading s; isError := isError s;
     errorMessage := errorMessage s; showNicknameEdit := showNicknameEdit s |}.

Definition setIsNicknameVerified (b : bool) (s : State) : State :=
  {| newNickname := newNickname s; isNicknameVerified := b;
     isLoading := isLoading s; isError := isError s;
     errorMessage := errorMessage s; showNicknameEdit := showNicknameEdit s |}.

Definition setIsLoading (b : bool) (s : State) : State :=
  {| newNickname := newNickname s; isNicknameVerified := isNicknameVerified s;
     isLoading := b; isError := isError s;
     errorMessage := errorMessage s; showNicknameEdit := showNicknameEdit s |}.

Definition setIsError (b : bool) (s : State) : State :=
  {| newNickname := newNickname s; isNicknameVerified := isNicknameVerified s;
     isLoading := isLoading s; isError := b;
     errorMessage := errorMessage s; showNicknameEdit := showNicknameEdit s |}.

Definition setErrorMessage (m : string) (s : State) : State :=
  {| newNickname := newNickname s; isNicknameVerified := isNicknameVerified s;
     isLoading := isLoading s; isError := isError s;
     errorMessage := m; showNicknameEdit := showNicknameEdit s |}.

Definition setShowNicknameEdit (b : bool) (s : State) : State :=
  {| newNickname := newNickname s; isNicknameVerified := isNicknameVerified s;
     isLoading := isLoading s; isError := isError s;
     errorMessage := errorMessage s; showNicknameEdit := b |}.

(** JavaScript's [!str]: true exactly for the empty string. *)
Definition falsy (v : string) : bool :=
  match v with
  | EmptyString => true
  | String _ _ => false
  end.

(** What the component does to the outside world. *)
Inductive Effect : Type :=
| ValidateNickname (nickname : string)   (* userApi.validateNickname(..) *)
| UpdateNickname (nickname : string)     (* userApi.updateNickname(..) *)
| OnNicknameChange (nickname : string)   (* the prop onNicknameChange(..) *)
| ConsoleError (text : string).          (* console.error(text, error) *)


(** How an awaited promise settles. *)
Inductive Settled (A : Type) : Type :=
| Fulfilled (a : A)
| Rejected.
Arguments Fulfilled {A} a.
Arguments Rejected {A}.

(** The object [userApi.validateNickname] resolves to. *)
Record ValidateResponse : Type := mkResponse {
  exists_ : bool;
  message : string
}.

Definition serverErrorMessage : string :=
  "서버 오류가 발생했습니다. 다시 시도해주세요.".

Definition saveErrorMessage : string :=
  "닉네임 변경에 실패했습니다.".

Definition saveErrorLog : string :=
  "닉네임 변경 실패:".

(** *** handleClickOutside

    [editBoxRef] is attached to the edit box, which is rendered under
    [showNicknameEdit &&], so [editBoxRef.current] is set exactly while
    [showNicknameEdit] is true.  [inside] is
    [editBoxRef.current.contains(event.target)]. *)
Definition handleClickOutside (inside : bool) (s : State) : State :=
  if showNicknameEdit s && negb inside then
    setIsNicknameVerified false
      (setErrorMessage ""
        (setIsError false
          (setShowNicknameEdit false s)))
  else s.

(** *** handleNicknameCheck

    Up to the [await]: the guard on the empty nickname, the two setters,
    and the request that leaves (if any). *)
Definition handleNicknameCheck_begin (s : State) : State * option string :=
  if falsy (newNickname s) then (s, None)
  else (setIsError false (setIsLoading true s), Some (newNickname s)).

(** From the [await] on: the [try] body after the response, or the
    [catch], and then the [finally]. *)
Definition handleNicknameCheck_resume
    (r : Settled ValidateResponse) (s : State) : State :=
  setIsLoading false
    match r with
    | Fulfilled response =>
        if exists_ response then
          setErrorMessage (message response) (setIsError true s)
        else
          setErrorMessage "" (setIsNicknameVerified true s)
    | Rejected =>
        setErrorMessage serverErrorMessage (setIsError true s)
    end.

(** *** handleSave

    Up to the [await]: the guard on [isNicknameVerified] and the request
    that leaves (if any).  The request carries [newNickname] of the render
    the handler belongs to; the same variable is passed to
    [onNicknameChange] afterwards. *)
Definition handleSave_begin (s : State) : State * option string :=
  if negb (isNicknameVerified s) then (s, None)
  else (s, Some (newNickname s)).

(** From the [await] on; [nickname] is the closed-over [newNickname].
    [Fulfilled] is the case in which the prop [onNicknameChange] returns;
    the case in which it throws is [handleSave_resume_thrown]. *)
Definition handleSave_resume
    (nickname : string) (r : Settled unit) (s : State) : State * list Effect :=
  match r with
  | Fulfilled _ =>
      (setShowNicknameEdit false s, [OnNicknameChange nickname])
  | Rejected =>
      (setErrorMessage saveErrorMessage (setIsError true s),
       [ConsoleError saveErrorLog])
  end.

(** From the [await] on, when the request is fulfilled and the prop
    [onNicknameChange] throws: the call is inside the [try], so
    [setShowNicknameEdit(false)] is skipped and the [catch] runs. *)
Definition handleSave_resume_thrown
    (nickname : string) (s : State) : State * list Effect :=
  (setErrorMessage saveErrorMessage (setIsError true s),
   [OnNicknameChange nickname; ConsoleError saveErrorLog]).

(** A handler run from its call to the end, when the promise settles with
    [r] and no other event of the component comes in between; with what
    the run does to the outside world, in order. *)
Definition handleNicknameCheck
    (r : Settled ValidateResponse) (s : State) : State * list Effect :=
  match handleNicknameCheck_begin s with
  | (s1, Some nickname) =>
      (handleNicknameCheck_resume r s1, [ValidateNickname nickname])
  | (s1, None) => (s1, [])
  end.

Definition handleSave (r : Settled unit) (s : State) : State * list Effect :=
  match handleSave_begin s with
  | (s1, Some nickname) =>
      let (s2, es) := handleSave_resume nickname r s1 in
      (s2, UpdateNickname nickname :: es)
  | (s1, None) => (s1, [])
  end.

(** *** The rendered elements

    The change button is always rendered and never disabled; the input and
    the two other buttons are inside the edit box, rendered under
    [showNicknameEdit &&]. *)

(** [onClick={() => setShowNicknameEdit(true)}] *)
Definition changeButton_onClick (s : State) : State :=
  setShowNicknameEdit true s.

(** [disabled={isLoading || isNicknameVerified}] *)
Definition input_disabled (s : State) : bool :=
  isLoading s || isNicknameVerified s.

(** [onChange={(e) => setNewNickname(e.target.value)}] *)
Definition input_onChange (v : string) (s : State) : State :=
  setNewNickname v s.

(** [disabled={!newNickname || isNicknameVerified || isLoading}] *)
Definition checkButton_disabled (s : State) : bool :=
  falsy (newNickname s) || isNicknameVerified s || isLoading s.

(** [disabled={!isNicknameVerified}] *)
Definition saveButton_disabled (s : State) : bool :=
  negb (isNicknameVerified s).

(** *** Runs of the component

    The component together with the requests that have left and have not
    settled yet, and everything done to the outside world so far. *)
Record Config : Type := mkConfig {
  ui : State;
  validating : list string;   (* validateNickname requests in flight *)
  updating : list string;     (* updateNickname requests in flight *)
  effects : list Effect
}.

Definition initialConfig : Config :=
  {| ui := initial; validating := []; updating := []; effects := [] |}.

(** What can happen to the component.  A click or an input reaches its
    handler only if the element is rendered and not disabled; React has
    rendered the component again before the next event, so the attributes
    and the variables the handlers close over are those of the current
    state.  Requests settle in any order; [i] is the position among those
    in flight.  An [updateNickname] request that is fulfilled comes as
    [UpdateSettles i (Fulfilled tt)] when the prop [onNicknameChange]
    returns and as [UpdateFulfilledPropThrows i] when it throws. *)
Inductive Event : Type :=
| ClickChange
| TypeNickname (v : string)
| ClickCheck
| ClickSave
| MouseDown (inside : bool)
| ValidateSettles (i : nat) (r : Settled ValidateResponse)
| UpdateSettles (i : nat) (r : Settled unit)
| UpdateFulfilledPropThrows (i : nat).

Definition withUi (s : State) (c : Config) : Config :=
  {| ui := s; validating := validating c; updating := updating c;
     effects := effects c |}.

Definition dropNth {A : Type} (i : nat) (l : list A) : list A :=
  firstn i l ++ skipn (S i) l.

Definition step (c : Config) (e : Event) : Config :=
  let s := ui c in
  match e with
  | ClickChange => withUi (changeButton_onClick s) c
  | TypeNickname v =>
      if showNicknameEdit s && negb (input_disabled s)
      then withUi (input_onChange v s) c
      else c
  | ClickCheck =>
      if showNicknameEdit s && negb (checkButton_disabled s) then
        match handleNicknameCheck_begin s with
        | (s1, Some nickname) =>
            {| ui := s1;
               validating := validating c ++ [nickname];
               updating := updating c;
               effects := effects c ++ [ValidateNickname nickname] |}
        | (s1, None) => withUi s1 c
        end
      else c
  | ClickSave =>
      if showNicknameEdit s && negb (saveButton_disabled s) then
        match handleSave_begin s with
        | (s1, Some nickname) =>
            {| ui := s1;
               validating := validating c;
               updating := updating c ++ [nickname];
               effects := effects c ++ [UpdateNickname nickname] |}
        | (s1, None) => withUi s1 c
        end
      else c
  | MouseDown inside => withUi (handleClickOutside inside s) c
  | ValidateSettles i r =>
      match nth_error (validating c) i with
      | Some _ =>
          {| ui := handleNicknameCheck_resume r s;
             validating := dropNth i (validating c);
             updating := updating c;
             effects := effects c |}
      | None => c
      end
  | UpdateSettles i r =>
      match nth_error (updating c) i with
      | Some nickname =>
          let (s1, es) := handleSave_resume nickname r s in
          {| ui := s1;
             validating := validating c;
             updating := dropNth i (updating c);
             effects := effects c ++ es |}
      | None => c
      end
  | UpdateFulfilledPropThrows i =>
      match nth_error (updating c) i with
      | Some nickname =>
          let (s1, es) := handleSave_resume_thrown nickname s in
          {| ui := s1;
             validating := validating c;
             updating := dropNth i (updating c);
             effects := effects c ++ es |}
      | None => c
      end
  end.

(** The configuration after a sequence of events, oldest first. *)
Definition run (c : Config) (evs : list Event) : Config :=
  fold_left step evs c.

(** How many [validateNickname] calls a list of effects holds. *)
Definition countValidate (es : list Effect) : nat :=
  List.length
    (filter (fun e => match e with ValidateNickname _ => true | _ => false end) es).

(** A session: open, type, check (the name is free), save (refused by the
    server), save again (accepted).  A click on an element starts with a
    [mousedown] on it. *)
Definition retriedSession : list Event :=
  [ MouseDown false; ClickChange;
    MouseDown true; TypeNickname "alice";
    MouseDown true; ClickCheck;
    ValidateSettles 0 (Fulfilled {| exists_ := false; message := "" |});
    MouseDown true; ClickSave;
    UpdateSettles 0 Rejected;
    MouseDown true; ClickSave;
    UpdateSettles 0 (Fulfilled tt) ].

(** A session up to the click on the check button, and up to the answer
    that the nickname is free. *)
Definition checkingSession : list Event :=
  [ MouseDown false; ClickChange;
    MouseDown true; TypeNickname "alice";
    MouseDown true; ClickCheck ].

Definition verifiedSession : list Event :=
  checkingSession
  ++ [ ValidateSettles 0 (Fulfilled {| exists_ := false; message := "" |}) ].

(** No second [validateNickname] request leaves while one is in flight,
    and [isLoading] is up as long as one is. *)
Definition singleFlight (c : Config) : Prop :=
  (isLoading (ui c) = false -> validating c = []) /\
  List.length (validating c) <= 1.

(** *** What is rendered

    The [return] of the component, without the class names.  The edit box
    is rendered under [showNicknameEdit &&], the error paragraph under
    [isError &&], the note under [isNicknameVerified &&]. *)
Record EditBox : Type := mkEditBox {
  inputValue : string;
  inputDisabled : bool;
  errorText : option string;
  verifiedNote : option string;
  checkLabel : string;
  checkDisabled : bool;
  saveLabel : string;
  saveDisabled : bool
}.

Record View : Type := mkView {
  shownNickname : string;       (* the prop currentNickname *)
  changeLabel : string;
  editBox : option EditBox
}.

Definition render (currentNickname : string) (s : State) : View :=
  {| shownNickname := currentNickname;
     changeLabel := "변경하기";
     editBox :=
       if showNicknameEdit s then
         Some {| inputValue := newNickname s;
                 inputDisabled := input_disabled s;
                 errorText := if isError s then Some (errorMessage s) else None;
                 verifiedNote :=
                   if isNicknameVerified s
                   then Some "*사용 가능한 닉네임입니다." else None;
                 checkLabel :=
                   if isLoading s then "처리 중..."
                   else if isNicknameVerified s then "확인완료"
                   else "중복확인";
                 checkDisabled := checkButton_disabled s;
                 saveLabel := "닉네임 변경";
                 saveDisabled := saveButton_disabled s |}
       else None |}.

(** *** Observations on runs *)

(** The nickname an event reports free: the request that settles with
    [exists] false. *)
Definition reportedFree (c : Config) (e : Event) : list string :=
  match e with
  | ValidateSettles i (Fulfilled response) =>
      if exists_ response then []
      else match nth_error (validating c) i with
           | Some nickname => [nickname]
           | None => []
           end
  | _ => []
  end.

(** The nicknames reported free along a run, oldest first. *)
Fixpoint freeNames (c : Config) (evs : list Event) : list string :=
  match evs with
  | [] => []
  | e :: rest => reportedFree c e ++ freeNames (step c e) rest
  end.

Definition isUpdate (e : Effect) : bool :=
  match e with UpdateNickname _ => true | _ => false end.

Definition isOnChange (e : Effect) : bool :=
  match e with OnNicknameChange _ => true | _ => false end.

Definition isConsoleError (e : Effect) : bool :=
  match e with ConsoleError _ => true | _ => false end.

Definition count (p : Effect -> bool) (es : list Effect) : nat :=
  List.length (filter p es).

(** What holds of a configuration of a run, [F] being the nicknames
    reported free so far. *)
Record coherent (F : list string) (c : Config) : Prop := mkCoherent {
  coh_flight :
    validating c = if isLoading (ui c) then [newNickname (ui c)] else [];
  coh_loading :
    isLoading (ui c) = true ->
    isNicknameVerified (ui c) = false /\
    falsy (newNickname (ui c)) = false /\
    In (ValidateNickname (newNickname (ui c))) (effects c);
  coh_verified :
    isNicknameVerified (ui c) = true -> In (newNickname (ui c)) F;
  coh_updating :
    forall n, In n (updating c) ->
              In n F /\ In (UpdateNickname n) (effects c);
  coh_updated :
    forall n, In (UpdateNickname n) (effects c) -> In n F;
  coh_changed :
    forall n, In (OnNicknameChange n) (effects c) ->
              In (UpdateNickname n) (effects c);
  coh_free :
    forall n, In n F -> n <> "" /\ In (ValidateNickname n) (effects c);
  coh_validated :
    forall n, In (ValidateNickname n) (effects c) -> n <> ""
}.

(** Every [updateNickname] request is in flight or was answered once. *)
Definition answeredOnce (c : Config) : Prop :=
  count isUpdate (effects c) =
    count isOnChange (effects c) + count isConsoleError (effects c)
    + List.length (updating c).

(** Every [updateNickname] request is in flight or was answered, by at
    most one call of [onNicknameChange] and at most one logged failure,
    and by at least one of the two. *)
Definition answered (c : Config) : Prop :=
  count isOnChange (effects c) + List.length (updating c)
    <= count isUpdate (effects c) /\
  count isConsoleError (effects c) + List.length (updating c)
    <= count isUpdate (effects c) /\
  count isUpdate (effects c)
    <= count isOnChange (effects c) + count isConsoleError (effects c)
       + List.length (updating c).

(** Classes of events. *)
Definition propThrows (e : Event) : bool :=
  match e with UpdateFulfilledPropThrows _ => true | _ => false end.


Definition isFreeAnswer (e : Event) : bool :=
  match e with
  | ValidateSettles _ (Fulfilled response) => negb (exists_ response)
  | _ => false
  end.


Definition noneOf (p : Event -> bool) (evs : list Event) : bool :=
  forallb (fun e => negb (p e)) evs.


(** In a list of effects, oldest first: a call of [updateNickname] comes
    after one of [validateNickname] with the same nickname, and a call of
    [onNicknameChange] after one of [updateNickname] with it. *)
Definition callsInOrder (es : list Effect) : Prop :=
  forall (before after : list Effect) (n : string),
    (es = before ++ UpdateNickname n :: after ->
     In (ValidateNickname n) before) /\
    (es = before ++ OnNicknameChange n :: after ->
     In (UpdateNickname n) before).

End EditNickname.

(** ** The component [UserHobby] (second part of src/store/toast.ts) *)

Module UserHobby.
Import EditNickname.

(** [MyPageInfo] is declared in [@/types/my_page], outside these sources;
    the component reads its [hobbyTags] only, and [||] covers a missing
    one. *)
Record MyPageInfo : Type := mkInfo {
  hobbyTags : option (list string)
}.

Inductive Effect : Type :=
| GetMyPageInfo                 (* userApi.getMyPageInfo() *)
| ConsoleError (text : string). (* console.error(text, err) *)

(** [useState<string[]>([])] *)
Definition initial : list string := [].

Definition loadErrorLog : string := "취미 태그 로딩 실패:".

Definition emptyNote : string := "취미 태그가 없습니다.".

(** [data.hobbyTags || []]: an array, empty or not, is truthy. *)
Definition orEmpty (tags : option (list string)) : list string :=
  match tags with
  | Some ts => ts
  | None => []
  end.

(** [fetchHobbies] from its [await] on: on the state the component has
    then. *)
Definition fetchHobbies_resume
    (r : Settled MyPageInfo) (tags : list string) : list string * list Effect :=
  match r with
  | Fulfilled data => (orEmpty (hobbyTags data), [])
  | Rejected => (tags, [ConsoleError loadErrorLog])
  end.

(** The effect of the mount and the settling of its request. *)
Definition mount (r : Settled MyPageInfo) : list string * list Effect :=
  let (tags, es) := fetchHobbies_resume r initial in
  (tags, GetMyPageInfo :: es).

(** The props of a rendered [Tag]. *)
Record TagProps : Type := mkTag {
  key : nat;
  label : string;
  variant : string
}.

Inductive TagArea : Type :=
| Tags (ts : list TagProps)
| EmptyNote (text : string).

(** [hobbyTags.map((tag, index) => ...)], [index] counted from [i]. *)
Fixpoint mapTags (i : nat) (tags : list string) : list TagProps :=
  match tags with
  | [] => []
  | tag :: rest =>
      {| key := i; label := tag; variant := "white" |} :: mapTags (S i) rest
  end.

(** [hobbyTags.length > 0 ? hobbyTags.map(..) : <div>..</div>] *)
Definition render (tags : list string) : TagArea :=
  if Nat.ltb 0 (List.length tags) then Tags (mapTags 0 tags)
  else EmptyNote emptyNote.

End UserHobby.

(** * The toast store *)

Module ToastFacts.
Import Toast.

Lemma showToast_const (m : string) (s : ToastState) :
  showToast m s = {| isVisible := true; message := m |}.
Proof. reflexivity. Qed.

Lemma hideToast_const (s : ToastState) : hideToast s = initial.
Proof. reflexivity. Qed.

Lemma showAll_snoc (s : ToastState) (ms : list string) (m : string) :
  showAll s (ms ++ [m]) = showToast m (showAll s ms).
Proof. unfold showAll. now rewrite fold_left_app. Qed.

Lemma apply_resetConvention (s : ToastState) (a : Action) :
  resetConvention (apply s a).
Proof.
  destruct a as [m|]; unfold resetConvention; cbn; [discriminate | reflexivity].
Qed.

Lemma run_resetConvention (acts : list Action) :
  forall s, resetConvention s -> resetConvention (run s acts).
Proof.
  induction acts as [|a acts IH]; intros s Hs; [exact Hs|].
  cbn. apply IH, apply_resetConvention.
Qed.

(** C8. After any non-empty sequence of [showToast] calls, from any store
    state, the store is visible and holds the message of the last call;
    a [showToast] on a store that already shows a message replaces that
    message, nothing of it is kept. *)
Theorem showToast_last_write_wins :
  forall (s : ToastState) (ms : list string) (d : string),
    ms <> [] ->
    isVisible (showAll s ms) = true /\
    message (showAll s ms) = last ms d /\
    (forall m1 m2, showToast m2 (showToast m1 s) = showToast m2 s).
Proof.
  intros s ms d Hne.
  destruct (exists_last Hne) as [front [m ->]].
  rewrite showAll_snoc, last_last, showToast_const. cbn.
  repeat split.
Qed.

Lemma showToast_last_write_wins_witness :
  ["saved"; "uploaded"] <> [] /\
  isVisible (showAll (hideToast initial) ["saved"; "uploaded"]) = true /\
  message (showAll (hideToast initial) ["saved"; "uploaded"]) = "uploaded".
Proof.
  assert (Hne : ["saved"; "uploaded"] <> []) by discriminate.
  destruct (showToast_last_write_wins (hideToast initial)
              ["saved"; "uploaded"] "" Hne) as [Hv [Hm _]].
  split; [exact Hne | split; [exact Hv | exact Hm]].
Defined.

(** C9. In every store state reached from the initial one by [showToast]
    and [hideToast] calls, a hidden store has the empty message. *)
Theorem hidden_implies_empty_message :
  forall acts : list Action,
    isVisible (run initial acts) = false ->
    message (run initial acts) = "".
Proof.
  intros acts. apply run_resetConvention. intros _. reflexivity.
Qed.

Lemma hidden_implies_empty_message_witness :
  isVisible (run initial [ShowToast "saved"; HideToast]) = false /\
  message (run initial [ShowToast "saved"; HideToast]) = "".
Proof.
  split; [reflexivity|].
  apply (hidden_implies_empty_message [ShowToast "saved"; HideToast]).
  reflexivity.
Defined.

End ToastFacts.

(** * The nickname edit workflow *)

Module EditNicknameFacts.
Import EditNickname.

(** ** Helpers *)

Lemma falsy_spec (v : string) : falsy v = true <-> v = "".
Proof. destruct v; cbn; split; congruence. Qed.

Lemma not_falsy (v : string) : v <> "" -> falsy v = false.
Proof. destruct v; [congruence | reflexivity]. Qed.

Lemma checkButton_enabled_inv (s : State) :
  checkButton_disabled s = false ->
  falsy (newNickname s) = false /\
  isNicknameVerified s = false /\
  isLoading s = false.
Proof.
  unfold checkButton_disabled. intros H.
  apply orb_false_elim in H as [H Hl].
  apply orb_false_elim in H as [Hn Hv]. auto.
Qed.

Lemma handleNicknameCheck_begin_nonempty (s : State) :
  falsy (newNickname s) = false ->
  handleNicknameCheck_begin s =
    (setIsError false (setIsLoading true s), Some (newNickname s)).
Proof. unfold handleNicknameCheck_begin. now intros ->. Qed.

Lemma handleSave_begin_verified (s : State) :
  isNicknameVerified s = true ->
  handleSave_begin s = (s, Some (newNickname s)).
Proof. unfold handleSave_begin. now intros ->. Qed.

Lemma handleSave_begin_unverified (s : State) :
  isNicknameVerified s = false ->
  handleSave_begin s = (s, None).
Proof. unfold handleSave_begin. now intros ->. Qed.

(** The handler body has no guard of its own on [isLoading]: what keeps a
    second request from leaving is the [disabled] attribute of the button
    that calls it. *)
Remark handleNicknameCheck_begin_ignores_isLoading (s : State) :
  falsy (newNickname s) = false ->
  isLoading s = true ->
  snd (handleNicknameCheck_begin s) = Some (newNickname s).
Proof. intros Hn _. now rewrite handleNicknameCheck_begin_nonempty. Qed.

Lemma click_check_enabled (c : Config) :
  showNicknameEdit (ui c) = true ->
  checkButton_disabled (ui c) = false ->
  step c ClickCheck =
    {| ui := setIsError false (setIsLoading true (ui c));
       validating := validating c ++ [newNickname (ui c)];
       updating := updating c;
       effects := effects c ++ [ValidateNickname (newNickname (ui c))] |}.
Proof.
  intros Hshow Hdis. cbn. rewrite Hshow, Hdis. cbn.
  apply checkButton_enabled_inv in Hdis as [Hn _].
  now rewrite handleNicknameCheck_begin_nonempty.
Qed.

Lemma click_check_loading (c : Config) :
  isLoading (ui c) = true -> step c ClickCheck = c.
Proof.
  intros Hl. cbn. unfold checkButton_disabled. rewrite Hl.
  now rewrite orb_true_r, andb_false_r.
Qed.

Lemma nth_error_short {A : Type} (l : list A) (i : nat) (x : A) :
  List.length l <= 1 -> nth_error l i = Some x -> l = [x] /\ i = 0.
Proof.
  destruct l as [|y [|z l]]; cbn; intros Hlen Hnth.
  - destruct i; discriminate.
  - destruct i as [|i]; cbn in Hnth; [now inversion Hnth|].
    destruct i; discriminate.
  - lia.
Qed.

Lemma singleFlight_step (c : Config) (e : Event) :
  singleFlight c -> singleFlight (step c e).
Proof.
  intros [Hidle Hlen]. destruct e as [|v| | |inside|i r|i r|i].
  - split; assumption.
  - cbn. destruct (_ && _); split; assumption.
  - destruct (showNicknameEdit (ui c)) eqn:Hshow;
      [|cbn; rewrite Hshow; split; assumption].
    destruct (checkButton_disabled (ui c)) eqn:Hdis;
      [cbn; rewrite Hshow, Hdis; split; assumption|].
    rewrite (click_check_enabled c Hshow Hdis).
    apply checkButton_enabled_inv in Hdis as [_ [_ Hl]].
    rewrite (Hidle Hl). split; cbn; [discriminate | lia].
  - cbn. destruct (_ && _); [|split; assumption].
    unfold handleSave_begin. destruct (negb _); split; assumption.
  - split; cbn; [|assumption].
    unfold handleClickOutside. destruct (_ && _); assumption.
  - cbn. destruct (nth_error (validating c) i) as [x|] eqn:Hnth;
      [|split; assumption].
    destruct (nth_error_short _ _ _ Hlen Hnth) as [-> ->].
    split; cbn; [reflexivity | lia].
  - cbn. destruct (nth_error (updating c) i) as [x|]; [|split; assumption].
    destruct r; split; assumption.
  - cbn. destruct (nth_error (updating c) i) as [x|]; split; assumption.
Qed.

Lemma singleFlight_run (evs : list Event) :
  forall c, singleFlight c -> singleFlight (run c evs).
Proof.
  induction evs as [|e evs IH]; intros c Hc; [exact Hc|].
  cbn. apply IH, singleFlight_step, Hc.
Qed.

Lemma singleFlight_initial : singleFlight initialConfig.
Proof. split; cbn; [reflexivity | lia]. Qed.

Lemma countValidate_app (xs ys : list Effect) :
  countValidate (xs ++ ys) = countValidate xs + countValidate ys.
Proof. unfold countValidate. now rewrite filter_app, length_app. Qed.

(** ** The check of the nickname *)

(** C1. Along every run of the component at most one [validateNickname]
    request is in flight.  While one is ([isLoading] is up), a click on
    the check button does nothing: no state change and no request.  Two
    clicks in a row on the enabled button send exactly one request. *)
Theorem validate_single_flight :
  forall evs : list Event,
    let c := run initialConfig evs in
    List.length (validating c) <= 1 /\
    (isLoading (ui c) = true \/ validating c <> [] ->
     step c ClickCheck = c) /\
    (showNicknameEdit (ui c) = true ->
     checkButton_disabled (ui c) = false ->
     let c' := run c [ClickCheck; ClickCheck] in
     validating c' = [newNickname (ui c)] /\
     effects c' = effects c ++ [ValidateNickname (newNickname (ui c))] /\
     countValidate (effects c') = countValidate (effects c) + 1).
Proof.
  intros evs c.
  destruct (singleFlight_run evs _ singleFlight_initial) as [Hidle Hlen].
  fold c in Hidle, Hlen.
  split; [exact Hlen|]. split.
  - intros [Hl | Hne]; [now apply click_check_loading|].
    apply click_check_loading.
    destruct (isLoading (ui c)); [reflexivity|].
    now destruct Hne; apply Hidle.
  - intros Hshow Hdis c'. subst c'.
    change (run c [ClickCheck; ClickCheck])
      with (step (step c ClickCheck) ClickCheck).
    rewrite (click_check_enabled c Hshow Hdis).
    rewrite click_check_loading by reflexivity. cbn [validating effects].
    apply checkButton_enabled_inv in Hdis as [_ [_ Hl]].
    rewrite (Hidle Hl), countValidate_app. repeat split.
Qed.

Lemma validate_single_flight_witness :
  let typed := [MouseDown false; ClickChange;
                MouseDown true; TypeNickname "alice"; MouseDown true] in
  let c := run initialConfig typed in
  let c1 := run initialConfig (typed ++ [ClickCheck]) in
  (showNicknameEdit (ui c) = true /\ checkButton_disabled (ui c) = false) /\
  validating (run c [ClickCheck; ClickCheck]) = ["alice"] /\
  isLoading (ui c1) = true /\
  step c1 ClickCheck = c1.
Proof.
  intros typed c c1.
  destruct (validate_single_flight typed) as [_ [_ Htwice]].
  destruct (validate_single_flight (typed ++ [ClickCheck])) as [_ [Hnoop _]].
  split; [split; reflexivity|].
  split; [exact (proj1 (Htwice eq_refl eq_refl))|].
  split; [reflexivity|].
  exact (Hnoop (or_introl eq_refl)).
Defined.


(** ** The change button *)

(** C3, as the code has it.  A click on the change button sets
    [showNicknameEdit] and nothing else: [newNickname],
    [isNicknameVerified], [isError], [errorMessage] and [isLoading] are
    what they were.  On the first click after the mount they are
    therefore empty and false. *)
Theorem open_sets_only_editing :
  forall s : State,
    let s' := changeButton_onClick s in
    showNicknameEdit s' = true /\
    newNickname s' = newNickname s /\
    isNicknameVerified s' = isNicknameVerified s /\
    isError s' = isError s /\
    errorMessage s' = errorMessage s /\
    isLoading s' = isLoading s /\
    (s = initial ->
     newNickname s' = "" /\ isNicknameVerified s' = false /\ isError s' = false).
Proof.
  intros s s'. repeat split; subst s; reflexivity.
Qed.

Lemma open_sets_only_editing_witness :
  newNickname (changeButton_onClick initial) = "" /\
  isNicknameVerified (changeButton_onClick initial) = false /\
  isError (changeButton_onClick initial) = false.
Proof.
  exact (proj2 (proj2 (proj2 (proj2 (proj2 (proj2
           (open_sets_only_editing initial)))))) eq_refl).
Defined.

(** C3 fails as stated.  After a session in which the first save was
    refused and the second accepted, the box is closed with the nickname,
    the verified flag and the error flag still set; the next click on the
    change button opens the box with all three as they were. *)
Lemma open_does_not_clear :
  let s := ui (run initialConfig (retriedSession ++ [MouseDown false])) in
  let s' := changeButton_onClick s in
  showNicknameEdit s = false /\
  newNickname s' = "alice" /\
  isNicknameVerified s' = true /\
  isError s' = true /\
  ~ (showNicknameEdit s' = true /\ newNickname s' = "" /\
     isNicknameVerified s' = false /\ isError s' = false).
Proof.
  cbn. repeat split. intros [_ [H _]]. discriminate H.
Qed.

(** ** The save *)



(** C5. With [isNicknameVerified] true, a save whose request is rejected
    sets [isError] and the save error text, and leaves
    [showNicknameEdit] as it was: an open box stays open. *)
Theorem commit_failure :
  forall s : State,
    isNicknameVerified s = true ->
    let s' := fst (handleSave Rejected s) in
    isError s' = true /\
    errorMessage s' = "닉네임 변경에 실패했습니다." /\
    showNicknameEdit s' = showNicknameEdit s /\
    (showNicknameEdit s = true -> showNicknameEdit s' = true).
Proof.
  intros s Hv. unfold handleSave.
  rewrite (handleSave_begin_verified s Hv). cbn.
  repeat split. intros H; exact H.
Qed.

Lemma commit_failure_witness :
  let s := setIsNicknameVerified true
             (setNewNickname "alice" (changeButton_onClick initial)) in
  isNicknameVerified s = true /\
  isError (fst (handleSave Rejected s)) = true /\
  errorMessage (fst (handleSave Rejected s)) = "닉네임 변경에 실패했습니다." /\
  showNicknameEdit (fst (handleSave Rejected s)) = true.
Proof.
  intros s. split; [reflexivity|].
  destruct (commit_failure s eq_refl) as [He [Hm [_ Hopen]]].
  split; [exact He|]. split; [exact Hm | exact (Hopen eq_refl)].
Defined.

(** C6. With [isNicknameVerified] false a save does nothing, however the
    request would have settled: the state is the same, no request leaves,
    nothing is logged; the save button is disabled and a click on it
    leaves the whole configuration as it is. *)
Theorem commit_unverified_noop :
  forall (c : Config) (r : Settled unit),
    isNicknameVerified (ui c) = false ->
    handleSave r (ui c) = (ui c, []) /\
    handleSave_begin (ui c) = (ui c, None) /\
    saveButton_disabled (ui c) = true /\
    step c ClickSave = c.
Proof.
  intros c r Hv. unfold handleSave, saveButton_disabled. cbn [step].
  unfold saveButton_disabled.
  rewrite (handleSave_begin_unverified _ Hv), Hv, andb_false_r.
  repeat split.
Qed.

Lemma commit_unverified_noop_witness :
  let c := run initialConfig
             [MouseDown false; ClickChange;
              MouseDown true; TypeNickname "bob"] in
  isNicknameVerified (ui c) = false /\
  handleSave Rejected (ui c) = (ui c, []) /\
  step c ClickSave = c.
Proof.
  intros c. split; [reflexivity|].
  destruct (commit_unverified_noop c Rejected eq_refl) as [Hs [_ [_ Hc]]].
  split; [exact Hs | exact Hc].
Defined.

(** C10. When the request of a save is rejected, [isNicknameVerified],
    [newNickname], [showNicknameEdit] and [isLoading] are what they were;
    a second save then sends the same nickname again, with no check in
    between. *)
Theorem commit_failure_frame :
  forall s : State,
    isNicknameVerified s = true ->
    let s' := fst (handleSave Rejected s) in
    isNicknameVerified s' = true /\
    newNickname s' = newNickname s /\
    showNicknameEdit s' = showNicknameEdit s /\
    isLoading s' = isLoading s /\
    s' = setErrorMessage saveErrorMessage (setIsError true s) /\
    saveButton_disabled s' = false /\
    handleSave_begin s' = (s', Some (newNickname s)).
Proof.
  intros s Hv. unfold handleSave, saveButton_disabled.
  rewrite (handleSave_begin_verified s Hv). cbn.
  unfold handleSave_begin. cbn. rewrite Hv. repeat split.
Qed.

Lemma commit_failure_frame_witness :
  let s := setIsNicknameVerified true
             (setNewNickname "alice" (changeButton_onClick initial)) in
  isNicknameVerified s = true /\
  isNicknameVerified (fst (handleSave Rejected s)) = true /\
  newNickname (fst (handleSave Rejected s)) = "alice" /\
  snd (handleSave_begin (fst (handleSave Rejected s))) = Some "alice".
Proof.
  intros s. split; [reflexivity|].
  destruct (commit_failure_frame s eq_refl) as [Hv [Hn [_ [_ [_ [_ Hagain]]]]]].
  split; [exact Hv|]. split; [exact Hn|].
  now rewrite Hagain.
Defined.

(** ** The click outside *)

(** C7. With the box open, a [mousedown] outside it closes the box and
    clears [isError], [errorMessage] and [isNicknameVerified], whatever
    they were. *)
Theorem outside_click_resets :
  forall s : State,
    showNicknameEdit s = true ->
    let s' := handleClickOutside false s in
    showNicknameEdit s' = false /\
    isError s' = false /\
    errorMessage s' = "" /\
    isNicknameVerified s' = false.
Proof.
  intros s Hshow. unfold handleClickOutside. rewrite Hshow. cbn.
  repeat split.
Qed.

Lemma outside_click_resets_witness :
  let s := {| newNickname := "bob"; isNicknameVerified := true;
              isLoading := false; isError := true;
              errorMessage := saveErrorMessage; showNicknameEdit := true |} in
  showNicknameEdit s = true /\
  showNicknameEdit (handleClickOutside false s) = false /\
  isError (handleClickOutside false s) = false /\
  errorMessage (handleClickOutside false s) = "" /\
  isNicknameVerified (handleClickOutside false s) = false.
Proof.
  intros s. split; [reflexivity|].
  exact (outside_click_resets s eq_refl).
Defined.

End EditNicknameFacts.

(** * More on the toast store *)

Module ToastRuns.
Import Toast.

Lemma apply_forgets (s : ToastState) (a : Action) :
  apply s a = apply initial a.
Proof. destruct a; reflexivity. Qed.

Lemma run_last (s : ToastState) (front : list Action) (a : Action) :
  run s (front ++ [a]) = apply initial a.
Proof. unfold run. rewrite fold_left_app. apply apply_forgets. Qed.

(** X1. The store keeps nothing of its past: after a sequence of calls, from
    any state, it is what the last call alone makes of the initial store.
    After a [hideToast] it is the initial store again. *)
Theorem run_depends_on_last_call :
  forall (s : ToastState) (front : list Action) (a : Action),
    run s (front ++ [a]) = apply initial a /\
    run s (front ++ [HideToast]) = initial.
Proof.
  intros s front a. split; [apply run_last|].
  now rewrite run_last.
Qed.

(** X2. From the initial store, the toast is visible after a sequence of
    calls exactly when the last call was a [showToast]; the store then
    holds the message of that call, empty or not. *)
Theorem visible_iff_last_call_shows :
  forall acts : list Action,
    (isVisible (run initial acts) = true <->
     exists front m, acts = front ++ [ShowToast m]) /\
    (forall front m,
       acts = front ++ [ShowToast m] ->
       run initial acts = {| isVisible := true; message := m |}).
Proof.
  intros acts. split; [split|].
  - induction acts as [|a0 front _] using rev_ind; [discriminate|].
    rewrite run_last. destruct a0 as [m|]; [|discriminate].
    intros _. now exists front, m.
  - intros [front [m ->]]. now rewrite run_last.
  - intros front m ->. now rewrite run_last.
Qed.

Lemma visible_iff_last_call_shows_witness :
  (exists front m,
     [ShowToast "saved"; HideToast; ShowToast ""] = front ++ [ShowToast m]) /\
  isVisible (run initial [ShowToast "saved"; HideToast; ShowToast ""]) = true /\
  run initial [ShowToast "saved"; HideToast; ShowToast ""]
    = {| isVisible := true; message := "" |}.
Proof.
  assert (Hlast : exists front m,
            [ShowToast "saved"; HideToast; ShowToast ""]
              = front ++ [ShowToast m]).
  { now exists [ShowToast "saved"; HideToast], "". }
  destruct (visible_iff_last_call_shows
              [ShowToast "saved"; HideToast; ShowToast ""]) as [Hiff Hmsg].
  split; [exact Hlast|]. split; [exact (proj2 Hiff Hlast)|].
  exact (Hmsg [ShowToast "saved"; HideToast] "" eq_refl).
Defined.

End ToastRuns.

(** * The hobby tags *)

Module UserHobbyFacts.
Import UserHobby.

Lemma mapTags_label (tags : list string) :
  forall i, map label (mapTags i tags) = tags.
Proof.
  induction tags as [|tag rest IH]; intros i; cbn; [reflexivity|].
  now rewrite IH.
Qed.

Lemma mapTags_key (tags : list string) :
  forall i, map key (mapTags i tags) = seq i (List.length tags).
Proof.
  induction tags as [|tag rest IH]; intros i; cbn; [reflexivity|].
  now rewrite IH.
Qed.

Lemma mapTags_variant (tags : list string) :
  forall i, Forall (fun t => variant t = "white") (mapTags i tags).
Proof.
  induction tags as [|tag rest IH]; intros i; cbn; constructor;
    [reflexivity | apply IH].
Qed.

Lemma render_empty_iff (tags : list string) :
  render tags = EmptyNote emptyNote <-> tags = [].
Proof.
  destruct tags as [|tag rest]; cbn; split; try reflexivity; discriminate.
Qed.

(** X3. With no tag the note for the empty list is rendered, and no [Tag];
    otherwise one [Tag] for each hobby: the labels are the hobbies in their
    order, the keys are the positions 0, 1, ... (so no two are the same),
    and every variant is white. *)
Theorem render_one_tag_per_hobby :
  forall tags : list string,
    (tags = [] -> render tags = EmptyNote "취미 태그가 없습니다.") /\
    (tags <> [] ->
     exists ts, render tags = Tags ts /\
                map label ts = tags /\
                map key ts = seq 0 (List.length tags) /\
                NoDup (map key ts) /\
                Forall (fun t => variant t = "white") ts).
Proof.
  intros tags. split.
  - intros ->. reflexivity.
  - intros Hne. exists (mapTags 0 tags).
    destruct tags as [|tag rest]; [congruence|].
    split; [reflexivity|].
    split; [apply mapTags_label|].
    split; [apply mapTags_key|].
    split; [rewrite mapTags_key; apply seq_NoDup | apply mapTags_variant].
Qed.

Lemma render_one_tag_per_hobby_witness :
  ["등산"; "독서"] <> [] /\
  exists ts, render ["등산"; "독서"] = Tags ts /\
             map label ts = ["등산"; "독서"] /\
             map key ts = [0; 1].
Proof.
  assert (Hne : ["등산"; "독서"] <> []) by discriminate.
  split; [exact Hne|].
  destruct (proj2 (render_one_tag_per_hobby ["등산"; "독서"]) Hne)
    as [ts [Hr [Hl [Hk _]]]].
  exists ts. split; [exact Hr|]. split; [exact Hl | exact Hk].
Defined.

(** X4. After the mount and the settling of its request, the note for the
    empty list is shown exactly when the request was rejected, or the
    answer has no [hobbyTags], or an empty one: a failed load looks like a
    profile without hobbies.  One request leaves in all cases, and only a
    rejected one is logged. *)
Theorem empty_note_after_mount :
  forall r : EditNickname.Settled MyPageInfo,
    (render (fst (mount r)) = EmptyNote emptyNote <->
     r = EditNickname.Rejected \/
     exists data, r = EditNickname.Fulfilled data /\
                  (hobbyTags data = None \/ hobbyTags data = Some [])) /\
    snd (mount r) =
      match r with
      | EditNickname.Fulfilled _ => [GetMyPageInfo]
      | EditNickname.Rejected => [GetMyPageInfo; ConsoleError "취미 태그 로딩 실패:"]
      end.
Proof.
  intros r. split; [|destruct r; reflexivity].
  rewrite render_empty_iff. destruct r as [[tags]|]; cbn.
  - split.
    + intros Hempty. right. exists {| hobbyTags := tags |}.
      split; [reflexivity|]. cbn.
      destruct tags as [ts|]; [right; cbn in Hempty; now subst | now left].
    + intros [H | [data [Heq [H | H]]]]; [discriminate| |];
        inversion Heq; subst data; cbn in H; now rewrite H.
  - split; [now left | reflexivity].
Qed.

Lemma empty_note_after_mount_witness :
  render (fst (mount EditNickname.Rejected)) = EmptyNote emptyNote /\
  render (fst (mount (EditNickname.Fulfilled {| hobbyTags := None |})))
    = EmptyNote emptyNote.
Proof.
  split.
  - apply (proj1 (empty_note_after_mount EditNickname.Rejected)).
    now left.
  - apply (proj1 (empty_note_after_mount
                    (EditNickname.Fulfilled {| hobbyTags := None |}))).
    right. exists {| hobbyTags := None |}. split; [reflexivity | now left].
Defined.

End UserHobbyFacts.

(** * More on the runs of the nickname edit *)

Module EditNicknameRuns.
Import EditNickname.

Lemma In_dropNth {A : Type} (i : nat) (l : list A) (x : A) :
  In x (dropNth i l) -> In x l.
Proof.
  unfold dropNth. rewrite in_app_iff. intros [H | H].
  - rewrite <- (firstn_skipn i l). apply in_or_app. now left.
  - rewrite <- (firstn_skipn (S i) l). apply in_or_app. now right.
Qed.

Lemma length_dropNth {A : Type} (l : list A) :
  forall (i : nat) (x : A),
    nth_error l i = Some x -> S (List.length (dropNth i l)) = List.length l.
Proof.
  induction l as [|y l IH]; intros [|i] x H; try discriminate.
  - reflexivity.
  - cbn in H. specialize (IH i x H). unfold dropNth in *. cbn in *. lia.
Qed.

Lemma count_app (p : Effect -> bool) (xs ys : list Effect) :
  count p (xs ++ ys) = count p xs + count p ys.
Proof. unfold count. now rewrite filter_app, length_app. Qed.

Lemma flight_nth (c : Config) (i : nat) (x : string) :
  validating c = (if isLoading (ui c) then [newNickname (ui c)] else []) ->
  nth_error (validating c) i = Some x ->
  isLoading (ui c) = true /\ i = 0 /\ x = newNickname (ui c).
Proof.
  intros Hfl Hnth. rewrite Hfl in Hnth.
  destruct (isLoading (ui c)); [|destruct i; discriminate].
  destruct i as [|i]; cbn in Hnth; [now inversion Hnth | destruct i; discriminate].
Qed.

Lemma coherent_initial : coherent [] initialConfig.
Proof.
  constructor; cbn; try reflexivity; try discriminate; try contradiction;
    intros n [].
Qed.

Ltac snoc_in :=
  repeat match goal with
  | H : In _ (_ ++ _) |- _ => apply in_app_or in H; destruct H as [H | H]
  | H : In _ (_ :: _) |- _ => destruct H as [H | H]
  | H : In _ [] |- _ => destruct H
  end.

Lemma coherent_step (F : list string) (c : Config) (e : Event) :
  coherent F c -> coherent (F ++ reportedFree c e) (step c e).
Proof.
  intros [Hfl Hld Hvf Hup Hud Hch Hfr Hvd].
  destruct e as [|v| | |inside|i r|i r|i]; cbn [reportedFree];
    rewrite ?app_nil_r.
  - constructor; cbn; assumption.
  - cbn [step].
    destruct (showNicknameEdit (ui c) && negb (input_disabled (ui c))) eqn:Hen;
      [|constructor; assumption].
    apply andb_true_iff in Hen as [_ Hen]. apply negb_true_iff in Hen.
    apply orb_false_elim in Hen as [Hl Hv].
    rewrite Hl in Hfl.
    constructor; cbn; rewrite ?Hl, ?Hv; try assumption; discriminate.
  - cbn [step].
    destruct (showNicknameEdit (ui c) && negb (checkButton_disabled (ui c))) eqn:Hen;
      [|constructor; assumption].
    apply andb_true_iff in Hen as [_ Hen]. apply negb_true_iff in Hen.
    apply EditNicknameFacts.checkButton_enabled_inv in Hen as [Hn [Hv Hl]].
    rewrite (EditNicknameFacts.handleNicknameCheck_begin_nonempty _ Hn).
    rewrite Hl in Hfl.
    constructor; cbn; rewrite ?Hfl, ?Hv.
    + reflexivity.
    + intros _. repeat split; [exact Hn|]. apply in_or_app. right. now left.
    + discriminate.
    + intros n Hin. destruct (Hup n Hin). split; [assumption|].
      apply in_or_app. now left.
    + intros n Hin. snoc_in; [now apply Hud | discriminate Hin].
    + intros n Hin. snoc_in; [|discriminate Hin]. apply in_or_app. left. now apply Hch.
    + intros n Hin. destruct (Hfr n Hin). split; [assumption|].
      apply in_or_app. now left.
    + intros n Hin. snoc_in; [now apply Hvd|]. inversion Hin; subst n.
      intros E. rewrite E in Hn. discriminate.
  - cbn [step].
    destruct (showNicknameEdit (ui c) && negb (saveButton_disabled (ui c))) eqn:Hen;
      [|constructor; assumption].
    apply andb_true_iff in Hen as [_ Hen]. apply negb_true_iff in Hen.
    apply negb_false_iff in Hen.
    rewrite (EditNicknameFacts.handleSave_begin_verified _ Hen).
    constructor; cbn.
    + assumption.
    + intros Hl. destruct (Hld Hl) as [H1 [H2 H3]]. repeat split; try assumption.
      apply in_or_app. now left.
    + assumption.
    + intros n Hin. snoc_in.
      * destruct (Hup n Hin). split; [assumption|]. apply in_or_app. now left.
      * subst n. split; [now apply Hvf|]. apply in_or_app. right. now left.
    + intros n Hin. snoc_in; [now apply Hud|]. inversion Hin; subst n. now apply Hvf.
    + intros n Hin. snoc_in; [|discriminate Hin]. apply in_or_app. left. now apply Hch.
    + intros n Hin. destruct (Hfr n Hin). split; [assumption|].
      apply in_or_app. now left.
    + intros n Hin. snoc_in; [now apply Hvd | discriminate Hin].
  - cbn [step]. unfold handleClickOutside.
    destruct (showNicknameEdit (ui c) && negb inside);
      constructor; cbn; try assumption; try discriminate.
    intros Hl. destruct (Hld Hl) as [_ [H2 H3]]. repeat split; assumption.
  - cbn [step].
    destruct (nth_error (validating c) i) as [x|] eqn:Hnth.
    + destruct (flight_nth c i x Hfl Hnth) as [Hl [-> ->]].
      destruct (Hld Hl) as [Hv [Hn Hval]].
      rewrite Hl in Hfl. rewrite Hfl. unfold dropNth. cbn [firstn skipn app].
      destruct r as [response|]; [destruct (exists_ response) eqn:Hex|];
        unfold handleNicknameCheck_resume; rewrite ?Hex, ?app_nil_r;
        constructor; cbn; rewrite ?Hv; try assumption; try discriminate;
        try reflexivity.
      * intros _. apply in_or_app. right. now left.
      * intros n Hin. destruct (Hup n Hin). split; [|assumption].
        apply in_or_app. now left.
      * intros n Hin. apply in_or_app. left. now apply Hud.
      * intros n Hin. snoc_in; [now apply Hfr|]. subst n.
        split; [|assumption]. intros E. rewrite E in Hn. discriminate.
    + assert (HF : F ++ match r with
                        | Fulfilled response =>
                            if exists_ response then [] else []
                        | Rejected => []
                        end = F).
      { destruct r as [response|]; [destruct (exists_ response)|];
          apply app_nil_r. }
      rewrite HF. constructor; assumption.
  - cbn [step].
    destruct (nth_error (updating c) i) as [x|] eqn:Hnth;
      [|constructor; assumption].
    apply nth_error_In in Hnth. destruct (Hup x Hnth) as [HxF Hxu].
    destruct r as [u|]; unfold handleSave_resume; constructor; cbn;
      try assumption.
    all: try (intros Hl; destruct (Hld Hl) as [H1 [H2 H3]];
              repeat split; try assumption; apply in_or_app; now left).
    all: try (intros n Hin; apply In_dropNth in Hin; destruct (Hup n Hin);
              split; [assumption | apply in_or_app; now left]).
    all: try (intros n Hin; destruct (Hfr n Hin); split;
              [assumption | apply in_or_app; now left]).
    all: try (intros n Hin; snoc_in; [|try discriminate Hin]).
    all: try (now apply Hud).
    all: try (now apply Hvd).
    all: try (apply in_or_app; left; now apply Hch).
    all: try (inversion Hin; subst n; apply in_or_app; now left).
  - cbn [step].
    destruct (nth_error (updating c) i) as [x|] eqn:Hnth;
      [|constructor; assumption].
    apply nth_error_In in Hnth. destruct (Hup x Hnth) as [HxF Hxu].
    unfold handleSave_resume_thrown. constructor; cbn; try assumption.
    + intros Hl. destruct (Hld Hl) as [H1 [H2 H3]].
      repeat split; try assumption. apply in_or_app. now left.
    + intros n Hin. apply In_dropNth in Hin. destruct (Hup n Hin).
      split; [assumption | apply in_or_app; now left].
    + intros n Hin. snoc_in; [now apply Hud | discriminate Hin | discriminate Hin].
    + intros n Hin. apply in_or_app. left.
      snoc_in; [now apply Hch | now inversion Hin; subst n | discriminate Hin].
    + intros n Hin. destruct (Hfr n Hin).
      split; [assumption | apply in_or_app; now left].
    + intros n Hin. snoc_in; [now apply Hvd | discriminate Hin | discriminate Hin].
Qed.

Lemma coherent_run (evs : list Event) :
  forall (F : list string) (c : Config),
    coherent F c -> coherent (F ++ freeNames c evs) (run c evs).
Proof.
  induction evs as [|e evs IH]; intros F c Hc; cbn.
  - now rewrite app_nil_r.
  - rewrite app_assoc. apply IH, coherent_step, Hc.
Qed.

Lemma coherent_reached (evs : list Event) :
  coherent (freeNames initialConfig evs) (run initialConfig evs).
Proof. exact (coherent_run evs [] initialConfig coherent_initial). Qed.

Lemma answeredOnce_step (c : Config) (e : Event) :
  propThrows e = false -> answeredOnce c -> answeredOnce (step c e).
Proof.
  unfold answeredOnce, count. intros He H.
  destruct e as [|v| | |inside|i r|i r|i]; cbn [step]; [..|discriminate He].
  - exact H.
  - destruct (_ && _); exact H.
  - destruct (_ && _); [|exact H].
    destruct (handleNicknameCheck_begin (ui c)) as [s1 [n|]];
      cbn [effects updating withUi]; [|exact H].
    rewrite !filter_app, !length_app. cbn. lia.
  - destruct (_ && _); [|exact H].
    destruct (handleSave_begin (ui c)) as [s1 [n|]];
      cbn [effects updating withUi]; [|exact H].
    rewrite !filter_app, !length_app. cbn. lia.
  - exact H.
  - destruct (nth_error (validating c) i); exact H.
  - destruct (nth_error (updating c) i) as [x|] eqn:Hnth; [|exact H].
    apply length_dropNth in Hnth.
    destruct r as [u|]; cbn [handleSave_resume effects updating];
      rewrite !filter_app, !length_app; cbn; lia.
Qed.

Lemma answeredOnce_run (evs : list Event) :
  forall c, noneOf propThrows evs = true ->
            answeredOnce c -> answeredOnce (run c evs).
Proof.
  induction evs as [|e evs IH]; intros c Hevs Hc; [exact Hc|].
  cbn in Hevs. apply andb_true_iff in Hevs as [He Hevs].
  apply negb_true_iff in He.
  cbn. apply IH; [exact Hevs | now apply answeredOnce_step].
Qed.

Lemma answered_step (c : Config) (e : Event) :
  answered c -> answered (step c e).
Proof.
  unfold answered, count. intros H.
  destruct e as [|v| | |inside|i r|i r|i]; cbn [step].
  - exact H.
  - destruct (_ && _); exact H.
  - destruct (_ && _); [|exact H].
    destruct (handleNicknameCheck_begin (ui c)) as [s1 [n|]];
      cbn [effects updating withUi]; [|exact H].
    rewrite !filter_app, !length_app. cbn. lia.
  - destruct (_ && _); [|exact H].
    destruct (handleSave_begin (ui c)) as [s1 [n|]];
      cbn [effects updating withUi]; [|exact H].
    rewrite !filter_app, !length_app. cbn. lia.
  - exact H.
  - destruct (nth_error (validating c) i); exact H.
  - destruct (nth_error (updating c) i) as [x|] eqn:Hnth; [|exact H].
    apply length_dropNth in Hnth.
    destruct r as [u|]; cbn [handleSave_resume effects updating];
      rewrite !filter_app, !length_app; cbn; lia.
  - destruct (nth_error (updating c) i) as [x|] eqn:Hnth; [|exact H].
    apply length_dropNth in Hnth.
    cbn [handleSave_resume_thrown effects updating].
    rewrite !filter_app, !length_app. cbn. lia.
Qed.

Lemma answered_run (evs : list Event) :
  forall c, answered c -> answered (run c evs).
Proof.
  induction evs as [|e evs IH]; intros c Hc; [exact Hc|].
  cbn. apply IH, answered_step, Hc.
Qed.

(** X5. Along every run, [isLoading] is up exactly while a
    [validateNickname] request is in flight, and that request is for the
    nickname in the input; as long as it is, the nickname is not verified
    and the save button is disabled. *)
Theorem loading_while_in_flight :
  forall evs : list Event,
    let c := run initialConfig evs in
    validating c = (if isLoading (ui c) then [newNickname (ui c)] else []) /\
    (isLoading (ui c) = true ->
     isNicknameVerified (ui c) = false /\ saveButton_disabled (ui c) = true).
Proof.
  intros evs c. subst c.
  destruct (coherent_reached evs) as [Hfl Hld _ _ _ _ _ _].
  split; [exact Hfl|]. intros Hl. destruct (Hld Hl) as [Hv _].
  unfold saveButton_disabled. now rewrite Hv.
Qed.

Lemma loading_while_in_flight_witness :
  isLoading (ui (run initialConfig checkingSession)) = true /\
  validating (run initialConfig checkingSession) = ["alice"] /\
  saveButton_disabled (ui (run initialConfig checkingSession)) = true.
Proof.
  destruct (loading_while_in_flight checkingSession) as [Hfl Hex].
  split; [reflexivity|]. split; [exact Hfl | exact (proj2 (Hex eq_refl))].
Defined.

(** X6. Along every run, neither [validateNickname] nor [updateNickname]
    nor [onNicknameChange] is called with the empty nickname. *)
Theorem no_empty_nickname_sent :
  forall (evs : list Event) (e : Effect),
    In e (effects (run initialConfig evs)) ->
    e <> ValidateNickname "" /\ e <> UpdateNickname "" /\
    e <> OnNicknameChange "".
Proof.
  intros evs e Hin.
  destruct (coherent_reached evs) as [_ _ _ _ Hud Hch Hfr Hvd].
  repeat split; intros ->.
  - now apply (Hvd "").
  - now apply (Hfr "" (Hud "" Hin)).
  - now apply (Hfr "" (Hud "" (Hch "" Hin))).
Qed.

Lemma no_empty_nickname_sent_witness :
  In (UpdateNickname "alice") (effects (run initialConfig retriedSession)) /\
  UpdateNickname "alice" <> UpdateNickname "".
Proof.
  assert (Hin : In (UpdateNickname "alice")
                   (effects (run initialConfig retriedSession))).
  { vm_compute. auto. }
  split; [exact Hin|].
  exact (proj1 (proj2 (no_empty_nickname_sent retriedSession _ Hin))).
Defined.

(** X7. Along every run, a nickname passed to [updateNickname] or to
    [onNicknameChange] is one that a [validateNickname] answer of this run
    reported free ([exists] false), also when answers come in after the
    box was closed or opened again. *)
Theorem saved_nickname_was_reported_free :
  forall (evs : list Event) (n : string),
    In (UpdateNickname n) (effects (run initialConfig evs)) \/
    In (OnNicknameChange n) (effects (run initialConfig evs)) ->
    In n (freeNames initialConfig evs).
Proof.
  intros evs n.
  destruct (coherent_reached evs) as [_ _ _ _ Hud Hch _ _].
  intros [Hin | Hin]; [now apply Hud | now apply Hud, Hch].
Qed.

Lemma saved_nickname_was_reported_free_witness :
  In (OnNicknameChange "alice") (effects (run initialConfig retriedSession)) /\
  In "alice" (freeNames initialConfig retriedSession).
Proof.
  assert (Hin : In (OnNicknameChange "alice")
                   (effects (run initialConfig retriedSession))).
  { vm_compute. auto 6. }
  split; [exact Hin|].
  exact (saved_nickname_was_reported_free retriedSession "alice" (or_intror Hin)).
Defined.

(** X9. Along every run, every [updateNickname] request is in flight or
    was answered by a call of [onNicknameChange], by a logged failure, or
    by both (when the prop throws), and by no more than one of each: the
    calls of [onNicknameChange] and the requests in flight are together at
    most as many as the calls of [updateNickname], so are the logged
    failures and the requests in flight, and the calls of [updateNickname]
    are at most as many as all three.  In a run in which the prop never
    throws, they are exactly as many: one answer for each request. *)
Theorem update_requests_answered_once :
  forall evs : list Event,
    let c := run initialConfig evs in
    (count isOnChange (effects c) + List.length (updating c)
       <= count isUpdate (effects c) /\
     count isConsoleError (effects c) + List.length (updating c)
       <= count isUpdate (effects c) /\
     count isUpdate (effects c)
       <= count isOnChange (effects c) + count isConsoleError (effects c)
          + List.length (updating c)) /\
    (noneOf propThrows evs = true ->
     count isUpdate (effects c) =
       count isOnChange (effects c) + count isConsoleError (effects c)
       + List.length (updating c)).
Proof.
  intros evs c. split.
  - apply (answered_run evs initialConfig). unfold answered. cbn. lia.
  - intros Hevs. apply (answeredOnce_run evs initialConfig Hevs). reflexivity.
Qed.

Lemma update_requests_answered_once_witness :
  noneOf propThrows retriedSession = true /\
  count isUpdate (effects (run initialConfig retriedSession)) = 2 /\
  count isOnChange (effects (run initialConfig retriedSession)) = 1 /\
  count isConsoleError (effects (run initialConfig retriedSession)) = 1 /\
  2 = 1 + 1 + List.length (updating (run initialConfig retriedSession)).
Proof.
  split; [reflexivity|]. repeat (split; [reflexivity|]).
  exact (proj2 (update_requests_answered_once retriedSession) eq_refl).
Defined.

Lemma snoc_split {A : Type} (l l1 l2 : list A) (x y : A) :
  l ++ [x] = l1 ++ y :: l2 ->
  (l2 = [] /\ l1 = l /\ y = x) \/
  (exists l2', l2 = l2' ++ [x] /\ l = l1 ++ y :: l2').
Proof.
  induction l2 as [|z l2' _] using rev_ind; intros H.
  - apply app_inj_tail in H as [-> ->]. now left.
  - right. exists l2'.
    change (l1 ++ y :: l2' ++ [z]) with (l1 ++ (y :: l2') ++ [z]) in H.
    rewrite app_assoc in H. apply app_inj_tail in H as [-> ->]. now split.
Qed.

Lemma callsInOrder_snoc (es : list Effect) (x : Effect) :
  callsInOrder es ->
  (forall n, x = UpdateNickname n -> In (ValidateNickname n) es) ->
  (forall n, x = OnNicknameChange n -> In (UpdateNickname n) es) ->
  callsInOrder (es ++ [x]).
Proof.
  intros Hes Hu Ho before after n. split; intros H;
    apply snoc_split in H as [[_ [-> Hx]] | [after' [_ ->]]].
  - now apply Hu.
  - now apply (Hes before after' n).
  - now apply Ho.
  - now apply (Hes before after' n).
Qed.

Lemma callsInOrder_step (F : list string) (c : Config) (e : Event) :
  coherent F c -> callsInOrder (effects c) -> callsInOrder (effects (step c e)).
Proof.
  intros [_ _ Hvf Hup _ _ Hfr _] H.
  destruct e as [|v| | |inside|i r|i r|i]; cbn [step].
  - exact H.
  - destruct (_ && _); exact H.
  - destruct (_ && _); [|exact H].
    destruct (handleNicknameCheck_begin (ui c)) as [s1 [n|]];
      cbn [effects withUi]; [|exact H].
    apply callsInOrder_snoc; [exact H | discriminate | discriminate].
  - destruct (showNicknameEdit (ui c) && negb (saveButton_disabled (ui c)))
      eqn:Hen; [|exact H].
    apply andb_true_iff in Hen as [_ Hen]. apply negb_true_iff in Hen.
    apply negb_false_iff in Hen.
    rewrite (EditNicknameFacts.handleSave_begin_verified _ Hen).
    cbn [effects]. apply callsInOrder_snoc; [exact H | | discriminate].
    intros n Hn. inversion Hn; subst n. now apply Hfr, Hvf.
  - exact H.
  - destruct (nth_error (validating c) i); exact H.
  - destruct (nth_error (updating c) i) as [x|] eqn:Hnth; [|exact H].
    apply nth_error_In in Hnth. destruct (Hup x Hnth) as [_ Hxu].
    destruct r as [u|]; cbn [handleSave_resume effects];
      (apply callsInOrder_snoc; [exact H | discriminate |]).
    + intros n Hn. inversion Hn; now subst n.
    + discriminate.
  - destruct (nth_error (updating c) i) as [x|] eqn:Hnth; [|exact H].
    apply nth_error_In in Hnth. destruct (Hup x Hnth) as [_ Hxu].
    cbn [handleSave_resume_thrown effects].
    change [OnNicknameChange x; ConsoleError saveErrorLog]
      with ([OnNicknameChange x] ++ [ConsoleError saveErrorLog]).
    rewrite app_assoc.
    apply callsInOrder_snoc; [|discriminate|discriminate].
    apply callsInOrder_snoc; [exact H | discriminate |].
    intros n Hn. inversion Hn; now subst n.
Qed.

Lemma callsInOrder_run (evs : list Event) :
  forall (F : list string) (c : Config),
    coherent F c -> callsInOrder (effects c) ->
    callsInOrder (effects (run c evs)).
Proof.
  induction evs as [|e evs IH]; intros F c Hc Ho; [exact Ho|].
  cbn. apply (IH (F ++ reportedFree c e)).
  - now apply coherent_step.
  - now apply (callsInOrder_step F).
Qed.

(** X8. In the effects of every run, a call of [updateNickname] has a call
    of [validateNickname] with the same nickname before it, and a call of
    [onNicknameChange] has a call of [updateNickname] with the same
    nickname before it. *)
Theorem save_follows_check :
  forall (evs : list Event) (before after : list Effect) (n : string),
    (effects (run initialConfig evs) = before ++ UpdateNickname n :: after ->
     In (ValidateNickname n) before) /\
    (effects (run initialConfig evs) = before ++ OnNicknameChange n :: after ->
     In (UpdateNickname n) before).
Proof.
  intros evs. apply (callsInOrder_run evs [] initialConfig coherent_initial).
  intros [|x before] after n; split; discriminate.
Qed.

Lemma save_follows_check_witness :
  effects (run initialConfig retriedSession)
    = [ValidateNickname "alice"]
      ++ UpdateNickname "alice"
         :: [ConsoleError saveErrorLog; UpdateNickname "alice";
             OnNicknameChange "alice"] /\
  In (ValidateNickname "alice") [ValidateNickname "alice"].
Proof.
  split; [reflexivity|].
  exact (proj1 (save_follows_check retriedSession
                  [ValidateNickname "alice"]
                  [ConsoleError saveErrorLog; UpdateNickname "alice";
                   OnNicknameChange "alice"] "alice") eq_refl).
Defined.

(** X10. In the rendered edit box of every run: the check button reads
    "처리 중..." exactly while a request is in flight and "확인완료" exactly
    when the nickname is verified; when it reads "중복확인" the input is
    enabled, the save button is disabled, and the check button is disabled
    only for the empty input; the note of the free nickname is shown only
    over a disabled input whose value was reported free. *)
Theorem check_label_tells_the_state :
  forall (evs : list Event) (currentNickname : string) (box : EditBox),
    let c := run initialConfig evs in
    editBox (render currentNickname (ui c)) = Some box ->
    (checkLabel box = "처리 중..." <-> validating c <> []) /\
    (checkLabel box = "확인완료" <-> isNicknameVerified (ui c) = true) /\
    (checkLabel box = "중복확인" ->
     inputDisabled box = false /\ saveDisabled box = true /\
     (checkDisabled box = true <-> inputValue box = "")) /\
    (verifiedNote box <> None ->
     inputDisabled box = true /\
     In (inputValue box) (freeNames initialConfig evs)).
Proof.
  intros evs cur box c. subst c.
  destruct (coherent_reached evs) as [Hfl Hld Hvf _ _ _ _ _].
  unfold render. cbn [editBox].
  destruct (showNicknameEdit _); [|discriminate].
  intros Hbox. inversion Hbox; subst box; clear Hbox. cbn.
  unfold input_disabled, checkButton_disabled, saveButton_disabled.
  rewrite Hfl.
  destruct (isLoading _) eqn:Hl.
  - destruct (Hld eq_refl) as [Hv _]. rewrite Hv.
    repeat split; try discriminate; try reflexivity; try congruence.
  - destruct (isNicknameVerified _) eqn:Hv.
    + repeat split; try discriminate; try reflexivity; try congruence.
      now apply Hvf.
    + rewrite !orb_false_r.
      repeat split; try discriminate; try reflexivity; try congruence.
      * apply EditNicknameFacts.falsy_spec.
      * apply EditNicknameFacts.falsy_spec.
Qed.

Lemma check_label_tells_the_state_witness :
  exists box,
    editBox (render "bob" (ui (run initialConfig verifiedSession))) = Some box /\
    checkLabel box = "확인완료" /\
    In (inputValue box) (freeNames initialConfig verifiedSession).
Proof.
  eexists. split; [reflexivity|].
  destruct (check_label_tells_the_state verifiedSession "bob" _ eq_refl)
    as [_ [Hdone [_ Hnote]]].
  split; [exact (proj2 Hdone eq_refl)|].
  apply Hnote. discriminate.
Defined.

(** X11. The save button has no guard on a save in flight: two clicks in
    a row on it send two [updateNickname] requests, and when both are
    fulfilled [onNicknameChange] is called twice (the second time with the
    box already closed). *)
Theorem save_is_not_single_flight :
  forall c : Config,
    showNicknameEdit (ui c) = true ->
    isNicknameVerified (ui c) = true ->
    updating c = [] ->
    let n := newNickname (ui c) in
    let c2 := run c [ClickSave; ClickSave] in
    let c4 := run c2 [UpdateSettles 0 (Fulfilled tt);
                      UpdateSettles 0 (Fulfilled tt)] in
    updating c2 = [n; n] /\
    effects c2 = effects c ++ [UpdateNickname n; UpdateNickname n] /\
    updating c4 = [] /\
    effects c4 = effects c ++ [UpdateNickname n; UpdateNickname n;
                               OnNicknameChange n; OnNicknameChange n].
Proof.
  intros c Hshow Hv Hup. cbn.
  unfold saveButton_disabled, handleSave_begin. rewrite Hshow, Hv. cbn.
  rewrite Hshow, Hv, Hup. cbn.
  rewrite <- !app_assoc. cbn. repeat split.
Qed.

Lemma save_is_not_single_flight_witness :
  let c := run initialConfig verifiedSession in
  (showNicknameEdit (ui c) = true /\ isNicknameVerified (ui c) = true /\
   updating c = []) /\
  updating (run c [ClickSave; ClickSave]) = ["alice"; "alice"].
Proof.
  intros c. split; [repeat split|].
  exact (proj1 (save_is_not_single_flight c eq_refl eq_refl eq_refl)).
Defined.

(** X12. An answer that comes in after the box was closed is not dropped:
    the click outside clears [isNicknameVerified], and a late answer
    "free" sets it again, so that the box opens verified with the save
    button enabled; a late answer "taken" sets the error and its message
    on the closed box. *)
Theorem late_answer_is_applied_after_close :
  forall (c : Config) (n : string) (rest : list string) (m : string),
    showNicknameEdit (ui c) = true ->
    validating c = n :: rest ->
    let closed := step c (MouseDown false) in
    let free := run c [MouseDown false;
                       ValidateSettles 0
                         (Fulfilled {| exists_ := false; message := m |})] in
    let taken := run c [MouseDown false;
                        ValidateSettles 0
                          (Fulfilled {| exists_ := true; message := m |})] in
    isNicknameVerified (ui closed) = false /\
    isError (ui closed) = false /\
    (showNicknameEdit (ui free) = false /\
     isNicknameVerified (ui free) = true /\
     saveButton_disabled (changeButton_onClick (ui free)) = false) /\
    (showNicknameEdit (ui taken) = false /\
     isError (ui taken) = true /\
     errorMessage (ui taken) = m).
Proof.
  intros c n rest m Hshow Hfl. cbn. unfold handleClickOutside.
  rewrite Hshow. cbn. rewrite Hfl. cbn. repeat split.
Qed.

Lemma late_answer_is_applied_after_close_witness :
  let c := run initialConfig checkingSession in
  let free := run c [MouseDown false;
                     ValidateSettles 0
                       (Fulfilled {| exists_ := false; message := "" |})] in
  (showNicknameEdit (ui c) = true /\ validating c = ["alice"]) /\
  showNicknameEdit (ui free) = false /\
  isNicknameVerified (ui free) = true /\
  saveButton_disabled (changeButton_onClick (ui free)) = false.
Proof.
  intros c free. split; [split; reflexivity|].
  exact (proj1 (proj2 (proj2
           (late_answer_is_applied_after_close c "alice" [] ""
              eq_refl eq_refl)))).
Defined.

Lemma unverified_step (c : Config) (e : Event) :
  isNicknameVerified (ui c) = false ->
  isFreeAnswer e = false ->
  isNicknameVerified (ui (step c e)) = false.
Proof.
  intros Hv He. destruct e as [|v| | |inside|i r|i r|i]; cbn [step].
  - exact Hv.
  - destruct (_ && _); exact Hv.
  - destruct (_ && _); [|exact Hv].
    unfold handleNicknameCheck_begin. destruct (falsy _); exact Hv.
  - destruct (_ && _); [|exact Hv].
    unfold handleSave_begin. destruct (negb _); exact Hv.
  - cbn. unfold handleClickOutside. destruct (_ && _); [reflexivity | exact Hv].
  - destruct (nth_error (validating c) i); [|exact Hv].
    destruct r as [response|]; cbn in He |- *; [|exact Hv].
    apply negb_false_iff in He. rewrite He. exact Hv.
  - destruct (nth_error (updating c) i); [|exact Hv].
    destruct r; exact Hv.
  - destruct (nth_error (updating c) i); exact Hv.
Qed.

Lemma unverified_run (evs : list Event) :
  forall c, isNicknameVerified (ui c) = false ->
            noneOf isFreeAnswer evs = true ->
            isNicknameVerified (ui (run c evs)) = false.
Proof.
  induction evs as [|e evs IH]; intros c Hv Hevs; [exact Hv|].
  cbn in Hevs. apply andb_true_iff in Hevs as [He Hevs].
  apply negb_true_iff in He.
  cbn. apply IH; [now apply unverified_step | exact Hevs].
Qed.

(** X13. Closing the open box by a click outside and pressing the change
    button again keeps the typed nickname, [isLoading] and the requests in
    flight, and clears the error and the verified flag.  The save button
    is then disabled, and stays disabled whatever happens until an answer
    of [validateNickname] says that the nickname is free, be it the answer
    to a new check or to one that was in flight at the close. *)
Theorem close_and_reopen_keeps_draft :
  forall c : Config,
    showNicknameEdit (ui c) = true ->
    let c' := run c [MouseDown false; ClickChange] in
    ui c' = setIsNicknameVerified false
              (setErrorMessage "" (setIsError false (ui c))) /\
    newNickname (ui c') = newNickname (ui c) /\
    isLoading (ui c') = isLoading (ui c) /\
    input_disabled (ui c') = isLoading (ui c) /\
    validating c' = validating c /\
    updating c' = updating c /\
    (forall evs, noneOf isFreeAnswer evs = true ->
                 saveButton_disabled (ui (run c' evs)) = true).
Proof.
  intros c Hshow c'. subst c'. cbn [run fold_left step].
  unfold handleClickOutside. rewrite Hshow. cbn [andb negb].
  cbn [ui withUi validating updating]. unfold input_disabled. cbn.
  rewrite orb_false_r. repeat split.
  - destruct (ui c) as [n v l e m show]. cbn in Hshow. subst show. reflexivity.
  - intros evs Hevs. unfold saveButton_disabled.
    now rewrite unverified_run.
Qed.

Lemma close_and_reopen_keeps_draft_witness :
  let c := run initialConfig verifiedSession in
  let c' := run c [MouseDown false; ClickChange] in
  let taken := {| exists_ := true; message := "taken" |} in
  showNicknameEdit (ui c) = true /\
  newNickname (ui c') = "alice" /\
  saveButton_disabled
    (ui (run c' [MouseDown true; TypeNickname "bob"; MouseDown true;
                 ClickCheck; ValidateSettles 0 (Fulfilled taken)])) = true.
Proof.
  intros c c' taken. split; [reflexivity|].
  destruct (close_and_reopen_keeps_draft c eq_refl)
    as [_ [Hn [_ [_ [_ [_ Hsave]]]]]].
  split; [exact Hn|]. apply Hsave. reflexivity.
Defined.

(** X14. After a check from an enabled check button, the nickname is
    unchanged; if the answer is "free" the input and the check button are
    disabled and the save button enabled; if it is "taken", or the request
    is rejected, input and check button are enabled again and the save
    button stays disabled. *)
Theorem check_can_be_retried_unless_free :
  forall (s : State) (r : Settled ValidateResponse),
    newNickname s <> "" ->
    isLoading s = false ->
    isNicknameVerified s = false ->
    let s' := fst (handleNicknameCheck r s) in
    let free := match r with
                | Fulfilled response => negb (exists_ response)
                | Rejected => false
                end in
    newNickname s' = newNickname s /\
    checkButton_disabled s' = free /\
    input_disabled s' = free /\
    saveButton_disabled s' = negb free.
Proof.
  intros s r Hne Hl Hv. apply EditNicknameFacts.not_falsy in Hne.
  unfold handleNicknameCheck.
  rewrite (EditNicknameFacts.handleNicknameCheck_begin_nonempty s Hne).
  unfold checkButton_disabled, input_disabled, saveButton_disabled.
  destruct r as [[ex msg]|]; [destruct ex|]; cbn; rewrite ?Hne, ?Hv;
    repeat split.
Qed.

Lemma check_can_be_retried_unless_free_witness :
  let s := setNewNickname "bob" (changeButton_onClick initial) in
  (newNickname s <> "" /\ isLoading s = false /\ isNicknameVerified s = false) /\
  checkButton_disabled (fst (handleNicknameCheck Rejected s)) = false /\
  saveButton_disabled (fst (handleNicknameCheck Rejected s)) = true.
Proof.
  intros s.
  assert (Hne : newNickname s <> "") by discriminate.
  split; [repeat split; exact Hne|].
  destruct (check_can_be_retried_unless_free s Rejected Hne eq_refl eq_refl)
    as [_ [Hcheck [_ Hsave]]].
  split; [exact Hcheck | exact Hsave].
Defined.

(** ** The check of the nickname, with what happens before its answer *)






End EditNicknameRuns.
